(** * _WithGuard.h: a scoped guard that releases the interpreter lock, and
      the wrapper that runs a native callable under such a guard.

    The development embeds [src/_WithGuard.h] shallowly.  C++ code becomes
    state-passing functions over a program state, with an outcome that is
    either a returned value or a thrown exception, and with a trace of the
    calls made into the interpreter.  Template parameters become type
    parameters; the [Guard] parameter becomes a type class.  Where a
    property is about the objects handed to a call rather than their
    values, the parameters of the call are part of the state. *)

From Stdlib Require Import String.
From Stdlib Require Import List Bool Arith Lia.
Import ListNotations.

Set Implicit Arguments.

Section WithGuard.

(** The parts of the program the header does not fix. *)
Context {PyThreadState : Type}.   (* the interpreter's per-thread record *)
Context {Mem : Type}.             (* everything native code can read or write *)
Context {exn : Type}.             (* C++ exception objects *)
Context {obs : Type}.             (* observable actions of native code *)

(** ** The interpreter, as far as the header touches it *)

(** [PyThreadState*]: a pointer, possibly null. *)
Definition PyThreadState_ptr : Type := option PyThreadState.

Record Interp : Type := {
  gil_held : bool;                      (* does this thread hold the lock *)
  tstate_current : PyThreadState_ptr    (* the thread state now installed *)
}.

Record World : Type := {
  interp : Interp;
  mem : Mem
}.

Inductive event : Type :=
| SaveThread (t : PyThreadState_ptr)      (* PyEval_SaveThread returned t *)
| RestoreThread (t : PyThreadState_ptr)   (* PyEval_RestoreThread(t) *)
| Native (o : obs).                       (* something the callable did *)

Definition trace : Type := list event.

(** Modelled from the spec: the interpreter's thread-state primitives are not
    part of this repository.  The spec treats them as opaque operations,
    "release-returns-token, restore-consumes-token": releasing hands back the
    thread state that was installed and gives up the lock; restoring takes
    the lock again and installs the token it is given. *)
Definition PyEval_SaveThread (w : World) : PyThreadState_ptr * World * trace :=
  let t := tstate_current (interp w) in
  (t,
   {| interp := {| gil_held := false; tstate_current := None |};
      mem := mem w |},
   [SaveThread t]).

Definition PyEval_RestoreThread (t : PyThreadState_ptr) (w : World)
  : World * trace :=
  ({| interp := {| gil_held := true; tstate_current := t |};
      mem := mem w |},
   [RestoreThread t]).

(** ** Computations *)

Inductive outcome (A : Type) : Type :=
| Normal (a : A)     (* return a *)
| Raise (e : exn).   (* throw e *)
Arguments Raise {A} e.

(** A computation over a state [St]: its outcome, the state it leaves and
    the events it produced, in order. *)
#[universes(polymorphic)]
Definition M (St A : Type) : Type := St -> outcome A * St * trace.

(** ** The guard *)

(** What [guarded_function] asks of its [Guard] parameter: it can be
    default-constructed and destroyed.  A constructor may throw; a
    destructor does not. *)
Class Guard (G : Type) : Type := {
  construct : M World G;
  destroy : G -> World -> World * trace
}.

(** [struct no_gil]: one private member. *)
Record no_gil : Type := { _state : PyThreadState_ptr }.

(** [no_gil()  { _state = PyEval_SaveThread(); }] *)
Definition no_gil_ctor : M World no_gil :=
  fun w =>
    let '(t, w', tr) := PyEval_SaveThread w in
    (Normal {| _state := t |}, w', tr).

(** [~no_gil() { PyEval_RestoreThread(_state); }] *)
Definition no_gil_dtor (g : no_gil) (w : World) : World * trace :=
  PyEval_RestoreThread (_state g) w.

(** The struct declares no copy constructor, so the implicit one exists and
    copies the member. *)
Definition no_gil_copy (g : no_gil) : no_gil := {| _state := _state g |}.

#[export] Instance no_gil_Guard : Guard no_gil := {
  construct := no_gil_ctor;
  destroy := no_gil_dtor
}.

(** ** Signatures *)

(** A function type [R (A1, ..., An)]. *)
Record signature : Type := {
  result_type : Type;
  params : list Type
}.

(** The values [a1, ..., an] of a call, one per parameter. *)
Fixpoint tuple (As : list Type) : Type :=
  match As with
  | [] => unit
  | A :: As' => (A * tuple As')%type
  end.

(** ** [boost::function<Signature>] *)

(** A [boost::function] owns a copy of its target and erases the target's
    type.  Calling it calls the stored copy, which for a function object may
    change that copy's members; for a function pointer or a pointer to
    member function the target is the pointer and the call leaves it alone.
    An empty [boost::function] is the target whose call throws
    [bad_function_call]. *)
Record boost_function (Sig : signature) : Type := {
  functor_type : Type;
  functor : functor_type;
  invoker : tuple (params Sig) -> M (functor_type * World) (result_type Sig)
}.

(** [f(a1, ..., an)] on a [boost::function] object [f]. *)
Definition function_call {Sig : signature} (args : tuple (params Sig))
  : M (boost_function Sig * World) (result_type Sig) :=
  fun '(f, w) =>
    let '(r, (s', w'), tr) := invoker f args (functor f, w) in
    (r, ({| functor := s'; invoker := invoker f |}, w'), tr).

(** ** [detail::guarded_function<Signature, Guard>] *)

Record guarded_function (Sig : signature) (G : Type) : Type := {
  fn_ : boost_function Sig
}.
Arguments Build_guarded_function {Sig} G fn_.

(** [fn_(a1, ..., an)] inside a member function: the call goes to the member
    of [*this]. *)
Definition call_fn_ {Sig : signature} {G : Type} (args : tuple (params Sig))
  : M (guarded_function Sig G * World) (result_type Sig) :=
  fun '(this, w) =>
    let '(r, (f', w'), tr) := function_call args (fn_ this, w) in
    (r, (Build_guarded_function G f', w'), tr).

(** [{ Guard g; return body; }]: the local [g] is constructed first; if its
    constructor throws, nothing else happens.  Otherwise the body runs, and
    [g] is destroyed when the block is left, by the [return] or by an
    exception that passes through. *)
Definition scoped (G : Type) `{Guard G} {St A : Type}
    (body : M (St * World) A) : M (St * World) A :=
  fun '(this, w) =>
    match construct w with
    | (Raise e, w1, t1) => (Raise e, (this, w1), t1)
    | (Normal g, w1, t1) =>
        let '(r, (this', w2), t2) := body (this, w1) in
        let '(w3, t3) := destroy g w2 in
        (r, (this', w3), t1 ++ t2 ++ t3)
    end.
Arguments scoped G {_ St A} body.

Section call_operators.
Context {R : Type} {G : Type} `{Guard G}.

(** [result_type operator()()] *)
Definition call0
  : M (guarded_function (Build_signature R []) G * World) R :=
  scoped G (call_fn_ (Sig := Build_signature R []) tt).

(** [template <typename A1> result_type operator()(A1 a1)] *)
Definition call1 {A1 : Type} (a1 : A1)
  : M (guarded_function (Build_signature R [A1]) G * World) R :=
  scoped G (call_fn_ (Sig := Build_signature R [A1]) (a1, tt)).

(** [template <typename A1, typename A2>
     result_type operator()(A1 a1, A2 a2)] *)
Definition call2 {A1 A2 : Type} (a1 : A1) (a2 : A2)
  : M (guarded_function (Build_signature R [A1; A2]) G * World) R :=
  scoped G (call_fn_ (Sig := Build_signature R [A1; A2]) (a1, (a2, tt))).

(** [template <typename A1, typename A2, typename A3>
     result_type operator()(A1 a1, A2 a2, A3 a3)] *)
Definition call3 {A1 A2 A3 : Type} (a1 : A1) (a2 : A2) (a3 : A3)
  : M (guarded_function (Build_signature R [A1; A2; A3]) G * World) R :=
  scoped G (call_fn_ (Sig := Build_signature R [A1; A2; A3])
              (a1, (a2, (a3, tt)))).

(** [template <typename A1, typename A2, typename A3, typename A4>
     result_type operator()(A1 a1, A2 a2, A3 a3, A4 a4)] *)
Definition call4 {A1 A2 A3 A4 : Type} (a1 : A1) (a2 : A2) (a3 : A3) (a4 : A4)
  : M (guarded_function (Build_signature R [A1; A2; A3; A4]) G * World) R :=
  scoped G (call_fn_ (Sig := Build_signature R [A1; A2; A3; A4])
              (a1, (a2, (a3, (a4, tt))))).

(** Overload resolution for a call with as many arguments as the signature
    has parameters: the class has five call operators, for zero to four
    arguments, and a call with more does not compile. *)
Definition call_operator (As : list Type)
  : option (tuple As ->
            M (guarded_function (Build_signature R As) G * World) R) :=
  match As return
    option (tuple As ->
            M (guarded_function (Build_signature R As) G * World) R)
  with
  | [] => Some (fun _ => call0)
  | [A1] => Some (fun '(a1, _) => call1 a1)
  | [A1; A2] => Some (fun '(a1, (a2, _)) => call2 a1 a2)
  | [A1; A2; A3] => Some (fun '(a1, (a2, (a3, _))) => call3 a1 a2 a3)
  | [A1; A2; A3; A4] =>
      Some (fun '(a1, (a2, (a3, (a4, _)))) => call4 a1 a2 a3 a4)
  | _ => None
  end.

End call_operators.

(** ** Signature introspection *)

(** [C*]: the address of an object of class [C] kept in native memory. *)
Inductive pointer (C : Type) : Type := address (a : nat).

(** [boost::add_pointer<C>::type] *)
Definition add_pointer (C : Type) : Type := pointer C.

(** An MPL type sequence as [boost::function_types::components] builds it:
    the result type at the front, the parameter types after it. *)
Record mpl_sequence : Type := {
  front : Type;
  rest : list Type
}.

(** The types [with_aux] accepts for [Fn]: the primary template of
    [mpl_signature] takes function pointers and pointers to member
    functions, the specialisation takes [boost::function]. *)
Inductive callable_type : Type :=
| function_pointer (R : Type) (As : list Type)
    (* pointer to a function R (A1, ..., An) *)
| member_function_pointer (R C : Type) (As : list Type)
    (* pointer to a member function of C, R (A1, ..., An) *)
| boost_function_type (R : Type) (As : list Type).
    (* boost::function<R (A1, ..., An)> *)

(** The values of such a type.  A function runs on the program state; a
    member function also takes the object it is called on. *)
Definition Fn (F : callable_type) : Type :=
  match F with
  | function_pointer R As => tuple As -> M World R
  | member_function_pointer R C As => pointer C -> tuple As -> M World R
  | boost_function_type R As => boost_function (Build_signature R As)
  end.

(** [mpl_signature<Fn>::type]: a pointer to a function [R (A1)] gives
    [R, A1]; a pointer to a member function [R (A1)] of [C] gives
    [R, C*, A1], the class under [add_pointer]; [boost::function<Signature>]
    gives the components of [Signature]. *)
Definition mpl_signature (F : callable_type) : mpl_sequence :=
  match F with
  | function_pointer R As => {| front := R; rest := As |}
  | member_function_pointer R C As =>
      {| front := R; rest := add_pointer C :: As |}
  | boost_function_type R As => {| front := R; rest := As |}
  end.

(** [boost::function_types::function_type<Seq>::type]: [R, A1] gives the
    function type [R (A1)], and [R, C*, A1] gives [R (C*, A1)]. *)
Definition function_type (s : mpl_sequence) : signature :=
  {| result_type := front s; params := rest s |}.

(** [boost::function<signature_type>] constructed from a value of type [Fn].
    A function pointer is called through; a pointer to member function is
    called on the object its first argument points to; a [boost::function]
    of the same signature is copied. *)
Definition make_boost_function (F : callable_type)
  : Fn F -> boost_function (function_type (mpl_signature F)) :=
  match F return Fn F -> boost_function (function_type (mpl_signature F)) with
  | function_pointer R As => fun fn =>
      Build_boost_function (Build_signature R As)
        (fn : tuple As -> M World R)
        (fun args '(p, w) =>
           let '(r, w', tr) := p args w in (r, (p, w'), tr))
  | member_function_pointer R C As => fun fn =>
      Build_boost_function (Build_signature R (add_pointer C :: As))
        (fn : pointer C -> tuple As -> M World R)
        (fun '(self, args) '(p, w) =>
           let '(r, w', tr) := p self args w in (r, (p, w'), tr))
  | boost_function_type R As => fun fn => fn
  end.

(** [template <typename Fn> guarded_function(Fn fn) : fn_(fn) {}] *)
Definition make_guarded_function (G : Type) {F : callable_type} (fn : Fn F)
  : guarded_function (function_type (mpl_signature F)) G :=
  Build_guarded_function G (make_boost_function F fn).

(** ** The factory *)

(** A value-initialised object of a sequence type, [mpl_signature_type()]. *)
Inductive sequence_value (s : mpl_sequence) : Type := value_initialized.

(** Modelled from the spec: [boost::python::make_function] and the
    [boost::python::object] it returns belong to the binding library.  The
    spec describes the facility as taking "a callable, a signature
    description, and a policy" and returning an interpreter-native callable
    object; the object here keeps the three together. *)
Record object : Type := {
  obj_signature : mpl_sequence;
  obj_guard : Type;
  obj_guard_ops : Guard obj_guard;
  obj_callable : guarded_function (function_type obj_signature) obj_guard;
  obj_policy_type : Type;
  obj_policy : obj_policy_type
}.

Definition make_function {G : Type} `{Guard G} {Policy : Type}
    {s : mpl_sequence} (f : guarded_function (function_type s) G)
    (policy : Policy) (sig : sequence_value s) : object :=
  {| obj_signature := s; obj_callable := f; obj_policy := policy |}.

(** Modelled from the spec: [boost::python::default_call_policies], "the
    interpreter's default call-policy value". *)
Inductive default_call_policies : Type := default_call_policies_value.

(** [template <typename Guard, typename Fn, typename Policy>
     boost::python::object with_aux(Fn fn, const Policy& policy)] *)
Definition with_aux (G : Type) `{Guard G} {F : callable_type}
    {Policy : Type} (fn : Fn F) (policy : Policy) : object :=
  let mpl_signature_type := mpl_signature F in
  let signature_type := function_type mpl_signature_type in
  make_function
    (make_guarded_function G fn : guarded_function signature_type G)
    policy (value_initialized mpl_signature_type).
Arguments with_aux G {_ F Policy} fn policy.

(** [template <typename Guard, typename Fn, typename Policy>
     boost::python::object with(const Fn& fn, const Policy& policy)] *)
Definition with_policy (G : Type) `{Guard G} {F : callable_type}
    {Policy : Type} (fn : Fn F) (policy : Policy) : object :=
  with_aux G fn policy.
Arguments with_policy G {_ F Policy} fn policy.

(** [template <typename Guard, typename Fn>
     boost::python::object with(const Fn& fn)] *)
Definition with_ (G : Type) `{Guard G} {F : callable_type} (fn : Fn F)
  : object :=
  with_policy G fn default_call_policies_value.
Arguments with_ G {_ F} fn.

(** Modelled from the spec: a call from the interpreter reaches the call
    operator of the callable the object holds, with the arguments the
    signature description asks for, and the object keeps what the call
    leaves of that callable. *)
Definition python_call (o : object)
  : option (tuple (rest (obj_signature o)) -> World ->
            outcome (front (obj_signature o)) * (object * World) * trace) :=
  match call_operator (R := front (obj_signature o))
          (H := obj_guard_ops o) (rest (obj_signature o)) with
  | None => None
  | Some op =>
      Some (fun args w =>
              let '(r, (f', w'), tr) := op args (obj_callable o, w) in
              (r, ({| obj_signature := obj_signature o;
                      obj_guard_ops := obj_guard_ops o;
                      obj_callable := f';
                      obj_policy := obj_policy o |}, w'), tr))
  end.

(** ** Callers *)

(** One call after another on the same object, each with its own arguments;
    the caller catches whatever a call throws and goes on. *)
Fixpoint call_sequence {St A B : Type} (op : A -> M St B) (calls : list A)
    (s : St) : list (outcome B) * St * trace :=
  match calls with
  | [] => ([], s, [])
  | a :: calls' =>
      let '(r, s1, t1) := op a s in
      let '(rs, s2, t2) := call_sequence op calls' s1 in
      (r :: rs, s2, t1 ++ t2)
  end.

(** A callable called directly, without the wrapper: [fn(a1, ..., an)] for
    a function pointer or a [boost::function], [(self->*fn)(a1, ..., an)]
    for a pointer to member function, whose object comes first among the
    arguments. *)
Definition invoke (F : callable_type)
  : Fn F -> tuple (rest (mpl_signature F)) -> World ->
    outcome (front (mpl_signature F)) * World * trace :=
  match F return
    Fn F -> tuple (rest (mpl_signature F)) -> World ->
    outcome (front (mpl_signature F)) * World * trace
  with
  | function_pointer R As => fun fn args w => fn args w
  | member_function_pointer R C As => fun fn '(self, args) w => fn self args w
  | boost_function_type R As => fun fn args w =>
      let '(r, (_, w'), tr) :=
        function_call (Sig := Build_signature R As) args (fn, w) in
      (r, w', tr)
  end.
Arguments invoke {F} fn args w.

(** The state in which a thread runs after it gave up the lock. *)
Definition released (w : World) : World := snd (fst (PyEval_SaveThread w)).

(** The state after the lock was taken again with token [t]. *)
Definition restored (t : PyThreadState_ptr) (w : World) : World :=
  fst (PyEval_RestoreThread t w).

(** The call operators exist for at most four arguments. *)
Definition supported (As : list Type) : Prop := length As <= 4.

(** ** Sample callables *)

(** The numbers the samples compute with. *)
Definition num : Type := nat.

(** [num add(num a, num b) { return a + b; }] *)
Definition add : Fn (function_pointer num [num; num]) :=
  fun '(a, (b, _)) w => (Normal (a + b), w, []).

(** A function that throws [e]. *)
Definition thrower (R : Type) (e : exn) : Fn (function_pointer R []) :=
  fun _ w => (Raise e, w, []).

(** A function object with a member it changes,
    [struct counter { num n; num operator()() { return ++n; } }],
    held in a [boost::function<num ()>]. *)
Definition counter (n : num) : Fn (boost_function_type num []) :=
  Build_boost_function (Build_signature num []) n
    (fun _ '(n, w) => (Normal (S n), (S n, w), [])).


(** [{ no_gil g; no_gil g2(g); }]: a block that copies its guard.  Locals
    are destroyed in the reverse order of their construction. *)
Definition copied_guard_block : World -> World * trace :=
  fun w =>
    let '(t, w1, t1) := PyEval_SaveThread w in
    let g := {| _state := t |} in
    let g2 := no_gil_copy g in
    let '(w2, t2) := no_gil_dtor g2 w1 in
    let '(w3, t3) := no_gil_dtor g w2 in
    (w3, t1 ++ t2 ++ t3).

(** A guard that cannot be had: its constructor throws [e]. *)
Inductive barred : Type := barred_value.

Definition barred_Guard (e : exn) : Guard barred :=
  {| construct := fun w => (Raise e, w, []);
     destroy := fun _ w => (w, []) |}.

(** The state of a thread that holds the lock, with thread state [t]
    installed and native memory [m]. *)
Definition holding (t : PyThreadState_ptr) (m : Mem) : World :=
  {| interp := {| gil_held := true; tstate_current := t |}; mem := m |}.





(** ** Argument objects *)

(** How a parameter is declared: [A a] is a new object, initialised with a
    copy of the argument; [A& a] names the argument object itself. *)
Inductive passing : Type := by_value | by_reference.

(** The declared modes of a parameter list, one per parameter. *)
Fixpoint declaration (As : list Type) : Type :=
  match As with
  | [] => unit
  | _ :: As' => (passing * declaration As')%type
  end.

(** The parameter list [A1 a1, ..., An an] of the call operators. *)
Fixpoint all_by_value (As : list Type) : declaration As :=
  match As return declaration As with
  | [] => tt
  | _ :: As' => (by_value, all_by_value As')
  end.

(** What the argument objects of a call hold when the call is over, given
    what they held before, [xs], and what the callee's parameters held at
    the end, [ps]: an object bound to a reference parameter is that
    parameter; an object copied into a value parameter is as it was. *)
Fixpoint after_call (As : list Type)
  : declaration As -> tuple As -> tuple As -> tuple As :=
  match As return declaration As -> tuple As -> tuple As -> tuple As with
  | [] => fun _ _ _ => tt
  | _ :: As' => fun '(mode, modes) '(x, xs) '(p, ps) =>
      (match mode with by_value => x | by_reference => p end,
       after_call As' modes xs ps)
  end.

(** A target seen with the objects of its call: its parameters are declared
    by value or by reference, and its call works on its own members, on its
    parameters and on the program state, and may leave all three changed. *)
Record target (Sig : signature) : Type := {
  declared : declaration (params Sig);
  target_type : Type;
  target_value : target_type;
  target_call :
    M (target_type * tuple (params Sig) * World) (result_type Sig)
}.

(** The same target as a [boost::function] called with values: what the call
    leaves in the parameters is not looked at. *)
Definition as_boost_function {Sig : signature} (t : target Sig)
  : boost_function Sig :=
  {| functor_type := target_type t;
     functor := target_value t;
     invoker := fun args '(f, w) =>
                  let '(r, (f', _, w'), tr) := target_call t (f, args, w) in
                  (r, (f', w'), tr) |}.

(** The wrapper that stores the target. *)
Definition wrapper_of (G : Type) {Sig : signature} (t : target Sig)
  : guarded_function Sig G :=
  Build_guarded_function G (as_boost_function t).

(** [f(x1, ..., xn)] on a target, with the argument objects [xs]: the target
    runs on its parameters, and the arguments are afterwards what the
    target's declared modes leave of them. *)
Definition call_on_objects {Sig : signature}
  : M ((target Sig * tuple (params Sig)) * World) (result_type Sig) :=
  fun '((t, xs), w) =>
    let '(r, (f', ps, w'), tr) := target_call t (target_value t, xs, w) in
    (r,
     (({| declared := declared t; target_value := f';
          target_call := target_call t |},
       after_call _ (declared t) xs ps), w'),
     tr).

(** A call operator with the objects of its call: the parameters
    [a1, ..., an] are declared by value, so they start as copies of the
    arguments [xs]; [{ Guard g; return fn_(a1, ..., an); }] calls the target
    on the parameters; when the operator is left the parameters are gone,
    and the arguments are what the operator's declared modes leave of them.
    The result is that of the call, and with it the arguments afterwards. *)
Definition operator_on_objects (G : Type) `{Guard G} {Sig : signature}
    (t : target Sig) (xs : tuple (params Sig)) (w : World)
  : outcome (result_type Sig) * (target Sig * World) * trace
    * tuple (params Sig) :=
  let '(r, ((t', ps), w'), tr) := scoped G call_on_objects ((t, xs), w) in
  ((r, (t', w'), tr), after_call _ (all_by_value _) xs ps).
Arguments operator_on_objects G {_ Sig} t xs w.

(** [void bump(num& x) { ++x; }] *)
Definition bump : target (Build_signature unit [num]) :=
  Build_target (Build_signature unit [num])
    (by_reference, tt) tt
    (fun '(f, (x, _), w) => (Normal tt, (f, (S x, tt), w), [])).

(** ** Reading traces *)

Definition is_release (e : event) : bool :=
  match e with SaveThread _ => true | _ => false end.

Definition is_restore (e : event) : bool :=
  match e with RestoreThread _ => true | _ => false end.

Definition releases (tr : trace) : nat := length (filter is_release tr).
Definition restores (tr : trace) : nat := length (filter is_restore tr).

(** What one guard's lifetime contributes to the trace: the release that
    returned [t], what happened while the guard lived, the restore of [t]. *)
Definition bracket (run : PyThreadState_ptr * trace) : trace :=
  SaveThread (fst run) :: snd run ++ [RestoreThread (fst run)].

(** The stored callable called once per entry of [calls], each time in the
    state a release leaves and followed by the restore of the token that
    release returned; for every call, that token and the callable's own
    events. *)
Fixpoint inner_runs {Sig : signature} (calls : list (tuple (params Sig)))
    (f : boost_function Sig) (w : World)
  : list (PyThreadState_ptr * trace) :=
  match calls with
  | [] => []
  | args :: calls' =>
      let t := tstate_current (interp w) in
      let '(_, (f', w2), tr) := function_call args (f, released w) in
      (t, tr) :: inner_runs calls' f' (restored t w2)
  end.

(** A target whose call leaves the stored copy as it was. *)
Definition self_preserving {Sig : signature} (f : boost_function Sig)
  : Prop :=
  forall args s w, fst (snd (fst (invoker f args (s, w)))) = s.

(** A pointer is not changed by a call through it; a function object may
    or may not change itself. *)
Definition unchanged_by_call (F : callable_type) : Fn F -> Prop :=
  match F return Fn F -> Prop with
  | function_pointer _ _ => fun _ => True
  | member_function_pointer _ _ _ => fun _ => True
  | boost_function_type R As => fun fn =>
      self_preserving (Sig := Build_signature R As) fn
  end.
Arguments unchanged_by_call {F} fn.

(** * Properties *)

(** ** How the pieces compute *)

Ltac split_pairs :=
  repeat match goal with
         | p : (_ * _)%type |- _ => destruct p
         | u : unit |- _ => destruct u
         end.

(** Overload resolution succeeds up to four arguments, and every overload
    is the same block around the call of [fn_]. *)
Lemma call_operator_supported (R G : Type) `{Guard G} (As : list Type) :
  supported As ->
  exists op,
    call_operator (R := R) (G := G) As = Some op /\
    forall args st,
      op args st =
      scoped G (call_fn_ (Sig := Build_signature R As) args) st.
Proof.
  unfold supported.
  destruct As as [|A1 [|A2 [|A3 [|A4 [|A5 As]]]]]; simpl; intro Hlen;
    try lia; eexists; (split; [reflexivity|]);
    intros args st; simpl in args; split_pairs; reflexivity.
Qed.

(** With five arguments or more there is no call operator to pick. *)
Lemma call_operator_unsupported (R G : Type) `{Guard G} (As : list Type) :
  4 < length As -> call_operator (R := R) (G := G) As = None.
Proof.
  destruct As as [|A1 [|A2 [|A3 [|A4 [|A5 As]]]]]; simpl; intro Hlen;
    try lia; reflexivity.
Qed.

(** The block around a body, when the guard's constructor returns. *)
Lemma scoped_constructed (G : Type) `{Guard G} (St A : Type)
    (body : M (St * World) A) (this : St) (w w1 : World) (g : G)
    (t1 : trace) :
  construct w = (Normal g, w1, t1) ->
  scoped G body (this, w) =
  (fst (fst (body (this, w1))),
   (fst (snd (fst (body (this, w1)))),
    fst (destroy g (snd (snd (fst (body (this, w1))))))),
   t1 ++ snd (body (this, w1))
      ++ snd (destroy g (snd (snd (fst (body (this, w1))))))).
Proof.
  intro Hc. unfold scoped. rewrite Hc.
  destruct (body (this, w1)) as [[r [this' w2]] t2]. simpl.
  destruct (destroy g w2) as [w3 t3]. reflexivity.
Qed.

(** The block around a body, when the guard's constructor throws. *)
Lemma scoped_not_constructed (G : Type) `{Guard G} (St A : Type)
    (body : M (St * World) A) (this : St) (w w1 : World) (e : exn)
    (t1 : trace) :
  construct w = (Raise e, w1, t1) ->
  scoped G body (this, w) = (Raise e, (this, w1), t1).
Proof. intro Hc. unfold scoped. rewrite Hc. reflexivity. Qed.

(** The constructor of [no_gil] always returns. *)
Lemma no_gil_constructed (w : World) :
  construct (G := no_gil) w =
  (Normal {| _state := tstate_current (interp w) |}, released w,
   [SaveThread (tstate_current (interp w))]).
Proof. reflexivity. Qed.

(** The call of [fn_] is the call of the stored [boost::function], and the
    wrapper keeps what that call leaves of it. *)
Lemma call_fn__unfold (Sig : signature) (G : Type)
    (gf : guarded_function Sig G) (args : tuple (params Sig)) (w : World) :
  call_fn_ args (gf, w) =
  (fst (fst (function_call args (fn_ gf, w))),
   (Build_guarded_function G (fst (snd (fst (function_call args (fn_ gf, w))))),
    snd (snd (fst (function_call args (fn_ gf, w))))),
   snd (function_call args (fn_ gf, w))).
Proof.
  unfold call_fn_.
  destruct (function_call args (fn_ gf, w)) as [[r [f' w']] tr]. reflexivity.
Qed.

(** A [boost::function] made from a callable answers a call as the callable
    does. *)
Lemma function_call_invoke (F : callable_type) (fn : Fn F)
    (args : tuple (rest (mpl_signature F))) (w : World) :
  (fst (fst (function_call (Sig := function_type (mpl_signature F)) args
               (make_boost_function F fn, w))),
   snd (snd (fst (function_call (Sig := function_type (mpl_signature F)) args
                    (make_boost_function F fn, w)))),
   snd (function_call (Sig := function_type (mpl_signature F)) args
          (make_boost_function F fn, w)))
  = invoke fn args w.
Proof.
  destruct F as [R As|R C As|R As]; simpl in *.
  - unfold function_call; simpl. destruct (fn args w) as [[r w'] tr].
    reflexivity.
  - destruct args as [self args]. unfold function_call; simpl.
    destruct (fn self args w) as [[r w'] tr]. reflexivity.
  - unfold function_call, function_type; cbn.
    destruct (invoker fn args (functor fn, w)) as [[r [s' w']] tr].
    reflexivity.
Qed.

(** One call of the wrapper under a guard whose constructor returned: the
    result, the wrapper, the state and the trace it leaves. *)
Lemma guarded_call_unfold (G : Type) `{Guard G} (Sig : signature)
    (gf : guarded_function Sig G) (args : tuple (params Sig))
    (w w1 : World) (g : G) (t1 : trace) :
  construct w = (Normal g, w1, t1) ->
  scoped G (call_fn_ args) (gf, w) =
  (fst (fst (function_call args (fn_ gf, w1))),
   (Build_guarded_function G (fst (snd (fst (function_call args (fn_ gf, w1))))),
    fst (destroy g (snd (snd (fst (function_call args (fn_ gf, w1))))))),
   t1 ++ snd (function_call args (fn_ gf, w1))
      ++ snd (destroy g (snd (snd (fst (function_call args (fn_ gf, w1))))))).
Proof.
  intro Hc.
  rewrite scoped_constructed with (g := g) (w1 := w1) (t1 := t1)
    by exact Hc.
  rewrite call_fn__unfold. reflexivity.
Qed.

(** One call of the wrapper under [no_gil]. *)
Lemma no_gil_call_unfold (Sig : signature)
    (gf : guarded_function Sig no_gil) (args : tuple (params Sig))
    (w : World) :
  scoped no_gil (call_fn_ args) (gf, w) =
  (fst (fst (function_call args (fn_ gf, released w))),
   (Build_guarded_function no_gil
      (fst (snd (fst (function_call args (fn_ gf, released w))))),
    restored (tstate_current (interp w))
      (snd (snd (fst (function_call args (fn_ gf, released w)))))),
   SaveThread (tstate_current (interp w))
     :: snd (function_call args (fn_ gf, released w))
     ++ [RestoreThread (tstate_current (interp w))]).
Proof.
  rewrite guarded_call_unfold
    with (g := {| _state := tstate_current (interp w) |})
         (w1 := released w) (t1 := [SaveThread (tstate_current (interp w))])
    by apply no_gil_constructed.
  reflexivity.
Qed.

Lemma releases_app (t1 t2 : trace) :
  releases (t1 ++ t2) = releases t1 + releases t2.
Proof. unfold releases. rewrite filter_app, length_app. reflexivity. Qed.

Lemma restores_app (t1 t2 : trace) :
  restores (t1 ++ t2) = restores t1 + restores t2.
Proof. unfold restores. rewrite filter_app, length_app. reflexivity. Qed.

Lemma releases_bracket (run : PyThreadState_ptr * trace) :
  releases (bracket run) = S (releases (snd run)).
Proof.
  unfold bracket.
  change (SaveThread (fst run) :: snd run ++ [RestoreThread (fst run)])
    with ([SaveThread (fst run)] ++ snd run ++ [RestoreThread (fst run)]).
  rewrite !releases_app. unfold releases at 1 3. simpl. lia.
Qed.

Lemma restores_bracket (run : PyThreadState_ptr * trace) :
  restores (bracket run) = S (restores (snd run)).
Proof.
  unfold bracket.
  change (SaveThread (fst run) :: snd run ++ [RestoreThread (fst run)])
    with ([SaveThread (fst run)] ++ snd run ++ [RestoreThread (fst run)]).
  rewrite !restores_app. unfold restores at 1 3. simpl. lia.
Qed.

Lemma releases_brackets (runs : list (PyThreadState_ptr * trace)) :
  releases (flat_map bracket runs)
  = length runs + releases (concat (map snd runs)).
Proof.
  induction runs as [|run runs IH]; [reflexivity|].
  cbn [flat_map map concat length].
  rewrite !releases_app, releases_bracket, IH. lia.
Qed.

Lemma restores_brackets (runs : list (PyThreadState_ptr * trace)) :
  restores (flat_map bracket runs)
  = length runs + restores (concat (map snd runs)).
Proof.
  induction runs as [|run runs IH]; [reflexivity|].
  cbn [flat_map map concat length].
  rewrite !restores_app, restores_bracket, IH. lia.
Qed.

Lemma inner_runs_length (Sig : signature)
    (calls : list (tuple (params Sig))) :
  forall (f : boost_function Sig) (w : World),
    length (inner_runs calls f w) = length calls.
Proof.
  induction calls as [|args calls IH]; intros f w; [reflexivity|].
  cbn [inner_runs].
  destruct (function_call args (f, released w)) as [[r [f' w2]] tr].
  cbn [length]. rewrite IH. reflexivity.
Qed.

(** The trace of a run of calls is one bracket per call. *)
Lemma call_sequence_brackets (Sig : signature)
    (op : tuple (params Sig) ->
          M (guarded_function Sig no_gil * World) (result_type Sig)) :
  (forall args st, op args st = scoped no_gil (call_fn_ args) st) ->
  forall (calls : list (tuple (params Sig)))
         (gf : guarded_function Sig no_gil) (w : World),
    snd (call_sequence op calls (gf, w))
    = flat_map bracket (inner_runs calls (fn_ gf) w).
Proof.
  intros Hcall calls.
  induction calls as [|args calls IH]; intros gf w; [reflexivity|].
  cbn [call_sequence inner_runs].
  rewrite Hcall, no_gil_call_unfold.
  destruct (function_call args (fn_ gf, released w)) as [[r [f' w2]] tr].
  cbn [fst snd].
  specialize (IH (Build_guarded_function no_gil f')
                 (restored (tstate_current (interp w)) w2)).
  destruct (call_sequence op calls
              (Build_guarded_function no_gil f',
               restored (tstate_current (interp w)) w2))
    as [[rs st] tr'].
  cbn [fst snd flat_map bracket] in *. rewrite IH. reflexivity.
Qed.

(** A call through a target that preserves itself leaves the
    [boost::function] as it was. *)
Lemma function_call_self_preserving (Sig : signature)
    (f : boost_function Sig) (args : tuple (params Sig)) (w : World) :
  self_preserving f ->
  fst (snd (fst (function_call args (f, w)))) = f.
Proof.
  intro Hf. unfold function_call.
  pose proof (Hf args (functor f) w) as Hs.
  destruct (invoker f args (functor f, w)) as [[r [s' w']] tr].
  simpl in *. subst s'. destruct f; reflexivity.
Qed.

(** Targets made from pointers preserve themselves. *)
Lemma make_boost_function_self_preserving (F : callable_type) (fn : Fn F) :
  unchanged_by_call fn ->
  self_preserving (make_boost_function F fn).
Proof.
  destruct F as [R As|R C As|R As]; simpl; intro Hfn.
  - intros args s w. simpl. destruct (s args w) as [[r w'] tr]. reflexivity.
  - intros [self args] s w. simpl.
    destruct (s self args w) as [[r w'] tr]. reflexivity.
  - exact Hfn.
Qed.

(** One call of the wrapper, whatever its guard's constructor does, leaves a
    wrapper whose target preserves itself as it was. *)
Lemma guarded_call_self_preserving (G : Type) `{Guard G} (Sig : signature)
    (gf : guarded_function Sig G) (args : tuple (params Sig)) (w : World) :
  self_preserving (fn_ gf) ->
  fst (snd (fst (scoped G (call_fn_ args) (gf, w)))) = gf.
Proof.
  intro Hf.
  destruct (construct w) as [[[g|e] w1] t1] eqn:Hc.
  - rewrite guarded_call_unfold with (g := g) (w1 := w1) (t1 := t1)
      by exact Hc.
    cbn [fst snd]. rewrite function_call_self_preserving by exact Hf.
    destruct gf; reflexivity.
  - rewrite scoped_not_constructed with (e := e) (w1 := w1) (t1 := t1)
      by exact Hc.
    reflexivity.
Qed.

(** A run of calls, each of which leaves an object as it was, leaves that
    object as it was. *)
Lemma call_sequence_preserves (St A B : Type) (op : A -> M (St * World) B)
    (s0 : St) :
  (forall a w, fst (snd (fst (op a (s0, w)))) = s0) ->
  forall calls w, fst (snd (fst (call_sequence op calls (s0, w)))) = s0.
Proof.
  intros Hop calls.
  induction calls as [|a calls IH]; intro w; [reflexivity|].
  cbn [call_sequence].
  specialize (Hop a w).
  destruct (op a (s0, w)) as [[r [s1 w1]] t1].
  cbn [fst snd] in Hop. subst s1.
  specialize (IH w1).
  destruct (call_sequence op calls (s0, w1)) as [[rs [s2 w2]] t2].
  exact IH.
Qed.

(** Arguments copied into value parameters are as they were, whatever the
    parameters hold at the end. *)
Lemma after_call_all_by_value (As : list Type) :
  forall xs ps : tuple As, after_call As (all_by_value As) xs ps = xs.
Proof.
  induction As as [|A As IH]; intros xs ps.
  - destruct xs. reflexivity.
  - destruct xs as [x xs], ps as [p ps]. cbn [after_call all_by_value].
    rewrite IH. reflexivity.
Qed.

(** A call operator with the objects of its call leaves the arguments as
    they were, and is otherwise the guarded call of [fn_] on their values. *)
Lemma operator_on_objects_scoped (G : Type) `{Guard G} (Sig : signature)
    (t : target Sig) (xs : tuple (params Sig)) (w : World) :
  snd (operator_on_objects G t xs w) = xs /\
  scoped G (call_fn_ xs) (wrapper_of G t, w)
  = (fst (fst (fst (operator_on_objects G t xs w))),
     (wrapper_of G (fst (snd (fst (fst (operator_on_objects G t xs w))))),
      snd (snd (fst (fst (operator_on_objects G t xs w))))),
     snd (fst (operator_on_objects G t xs w))).
Proof.
  unfold operator_on_objects.
  destruct (construct w) as [[[g|e] w1] t1] eqn:Hc.
  - rewrite guarded_call_unfold with (g := g) (w1 := w1) (t1 := t1)
      by exact Hc.
    rewrite scoped_constructed with (g := g) (w1 := w1) (t1 := t1)
      by exact Hc.
    unfold call_on_objects, function_call, wrapper_of, as_boost_function.
    cbn [fn_ functor invoker functor_type].
    destruct (target_call t (target_value t, xs, w1))
      as [[r [[f' ps] w2]] t2].
    cbn [fst snd]. split; [apply after_call_all_by_value|reflexivity].
  - rewrite !scoped_not_constructed with (e := e) (w1 := w1) (t1 := t1)
      by exact Hc.
    cbn [fst snd]. split; [apply after_call_all_by_value|reflexivity].
Qed.

(** ** The claims *)


(** C2.  In every call of the wrapper guarded by [no_gil], the guard's
    release runs first and leaves the lock released; the stored callable is
    called in that state; the guard's restore runs on the state the callable
    leaves and is the last thing the call does, so the lock is held again
    when the call ends.  This holds whatever the callable's outcome is, a
    returned value or a thrown exception. *)
Theorem lock_released_around_call (R : Type) (As : list Type) :
  supported As ->
  exists op,
    call_operator (R := R) (G := no_gil) As = Some op /\
    forall gf args w,
      exists r f' w2 tr,
        function_call (Sig := Build_signature R As) args
          (fn_ gf, released w) = (r, (f', w2), tr) /\
        gil_held (interp (released w)) = false /\
        op args (gf, w)
        = (r,
           (Build_guarded_function no_gil f',
            restored (tstate_current (interp w)) w2),
           SaveThread (tstate_current (interp w))
             :: tr ++ [RestoreThread (tstate_current (interp w))]) /\
        gil_held (interp (restored (tstate_current (interp w)) w2)) = true.
Proof.
  intro Hs.
  destruct (call_operator_supported (G := no_gil) R Hs) as [op [Hop Hcall]].
  exists op. split; [exact Hop|].
  intros gf args w.
  destruct (function_call (Sig := Build_signature R As) args
              (fn_ gf, released w)) as [[r [f' w2]] tr] eqn:Hin.
  exists r, f', w2, tr.
  repeat split.
  rewrite Hcall, no_gil_call_unfold, Hin. reflexivity.
Qed.

(** C3.  When the call of the wrapped callable throws [e], the wrapper's
    call throws the same [e], and the guard's restore still runs: it is the
    last event of the call, it acts on the state the callable left, and the
    lock is held when the exception leaves the wrapper. *)
Theorem exception_propagates_and_lock_restored (F : callable_type)
    (fn : Fn F) :
  supported (rest (mpl_signature F)) ->
  exists op,
    call_operator (R := front (mpl_signature F)) (G := no_gil)
      (rest (mpl_signature F)) = Some op /\
    forall args w e w2 tr,
      invoke fn args (released w) = (Raise e, w2, tr) ->
      fst (fst (op args (make_guarded_function no_gil fn, w))) = Raise e /\
      snd (op args (make_guarded_function no_gil fn, w))
      = SaveThread (tstate_current (interp w))
          :: tr ++ [RestoreThread (tstate_current (interp w))] /\
      snd (snd (fst (op args (make_guarded_function no_gil fn, w))))
      = restored (tstate_current (interp w)) w2 /\
      gil_held
        (interp (snd (snd (fst (op args (make_guarded_function no_gil fn, w))))))
      = true.
Proof.
  intro Hs.
  destruct (call_operator_supported (G := no_gil) (front (mpl_signature F)) Hs)
    as [op [Hop Hcall]].
  exists op. split; [exact Hop|].
  intros args w e w2 tr Hfn.
  rewrite Hcall, no_gil_call_unfold. simpl.
  pose proof (function_call_invoke F fn args (released w)) as Hi.
  rewrite Hfn in Hi. inversion Hi as [[Hr Hw Ht]].
  repeat split.
Qed.

(** C4.  A run of N calls of the wrapper guarded by [no_gil] is N guard
    lifetimes: its trace is, call after call, the release a guard made, the
    events of the callable, and the restore of the token that same release
    returned.  So the guards make exactly N releases and N restores; these
    are all the releases and restores there are when the callable makes
    none itself. *)
Theorem releases_and_restores_paired (R : Type) (As : list Type) :
  supported As ->
  exists op,
    call_operator (R := R) (G := no_gil) As = Some op /\
    forall gf calls w,
      let tr := snd (call_sequence op calls (gf, w)) in
      let runs :=
        inner_runs (Sig := Build_signature R As) calls (fn_ gf) w in
      length runs = length calls /\
      tr = flat_map bracket runs /\
      releases tr = length calls + releases (concat (map snd runs)) /\
      restores tr = length calls + restores (concat (map snd runs)) /\
      (releases (concat (map snd runs)) = 0 ->
       restores (concat (map snd runs)) = 0 ->
       releases tr = length calls /\ restores tr = length calls).
Proof.
  intro Hs.
  destruct (call_operator_supported (G := no_gil) R Hs) as [op [Hop Hcall]].
  exists op. split; [exact Hop|].
  intros gf calls w tr runs.
  assert (Hlen : length runs = length calls)
    by apply (inner_runs_length (Sig := Build_signature R As)).
  assert (Htr : tr = flat_map bracket runs)
    by apply (call_sequence_brackets (Sig := Build_signature R As) op Hcall).
  assert (Hrel : releases tr = length calls + releases (concat (map snd runs)))
    by (rewrite Htr, releases_brackets, Hlen; reflexivity).
  assert (Hres : restores tr = length calls + restores (concat (map snd runs)))
    by (rewrite Htr, restores_brackets, Hlen; reflexivity).
  repeat split; try assumption; lia.
Qed.


(** C6, as the code has it.  The wrapper does not copy its guard: a call
    constructs one guard, runs the stored callable, and destroys that same
    guard once, after the callable is done, so the guard's restore runs once
    and after its release; when the constructor throws there is no guard and
    nothing is destroyed.  The guard type itself can be copied, and a copy
    holds the token of the guard it was made from. *)
Theorem one_guard_per_call (G : Type) `{Guard G} (R : Type)
    (As : list Type) :
  supported As ->
  exists op,
    call_operator (R := R) (G := G) As = Some op /\
    (forall gf args w g w1 t1,
       construct w = (Normal g, w1, t1) ->
       exists r f' w2 t2,
         function_call (Sig := Build_signature R As) args (fn_ gf, w1)
         = (r, (f', w2), t2) /\
         op args (gf, w)
         = (r, (Build_guarded_function G f', fst (destroy g w2)),
            t1 ++ t2 ++ snd (destroy g w2))) /\
    (forall gf args w e w1 t1,
       construct w = (Raise e, w1, t1) ->
       op args (gf, w) = (Raise e, (gf, w1), t1)) /\
    (forall g : no_gil, _state (no_gil_copy g) = _state g).
Proof.
  intro Hs.
  destruct (call_operator_supported (G := G) R Hs) as [op [Hop Hcall]].
  exists op. split; [exact Hop|]. split; [|split].
  - intros gf args w g w1 t1 Hc.
    destruct (function_call (Sig := Build_signature R As) args (fn_ gf, w1))
      as [[r [f' w2]] t2] eqn:Hin.
    exists r, f', w2, t2. split; [reflexivity|].
    rewrite Hcall.
    rewrite guarded_call_unfold with (g := g) (w1 := w1) (t1 := t1)
      by exact Hc.
    rewrite Hin. reflexivity.
  - intros gf args w e w1 t1 Hc.
    rewrite Hcall.
    apply scoped_not_constructed. exact Hc.
  - intro g. reflexivity.
Qed.

(** C7.  The guard's constructor stores in [_state] the token that
    [PyEval_SaveThread] returned, and the destructor, in whatever state it
    runs, passes that same token to [PyEval_RestoreThread]; the thread state
    installed afterwards is the one that was installed before the guard was
    made.  The guard does nothing else with the token: its code is the
    same for every type of thread state. *)
Theorem token_passed_unchanged (w : World) :
  exists g : no_gil,
    no_gil_ctor w = (Normal g, released w, snd (PyEval_SaveThread w)) /\
    _state g = fst (fst (PyEval_SaveThread w)) /\
    forall w2 : World,
      no_gil_dtor g w2
      = PyEval_RestoreThread (fst (fst (PyEval_SaveThread w))) w2 /\
      snd (no_gil_dtor g w2) = [RestoreThread (fst (fst (PyEval_SaveThread w)))] /\
      tstate_current (interp (fst (no_gil_dtor g w2)))
      = tstate_current (interp w).
Proof.
  exists {| _state := tstate_current (interp w) |}.
  repeat split.
Qed.

(** C8.  The factory without a policy is the factory with a policy, given
    the interpreter's default call policies: both build the same object,
    and so answer every call alike. *)
Theorem with_uses_default_policy (G : Type) `{Guard G} (F : callable_type)
    (fn : Fn F) :
  with_ G fn = with_policy G fn default_call_policies_value /\
  with_ G fn = with_aux G fn default_call_policies_value /\
  python_call (with_ G fn)
  = python_call (with_policy G fn default_call_policies_value).
Proof. repeat split. Qed.

(** C9, as the code has it.  The wrapper holds a copy of its callable and
    nothing else.  When a call of the callable leaves the callable itself
    unchanged, as with a function pointer or a pointer to member function,
    every run of calls leaves the wrapper as it was made. *)
Theorem wrapper_unchanged_by_calls (G : Type) `{Guard G}
    (F : callable_type) (fn : Fn F) :
  supported (rest (mpl_signature F)) ->
  unchanged_by_call fn ->
  fn_ (make_guarded_function G fn) = make_boost_function F fn /\
  exists op,
    call_operator (R := front (mpl_signature F)) (G := G)
      (rest (mpl_signature F)) = Some op /\
    forall calls w,
      fst (snd (fst (call_sequence op calls (make_guarded_function G fn, w))))
      = make_guarded_function G fn.
Proof.
  intros Hs Hfn. split; [reflexivity|].
  destruct (call_operator_supported (G := G) (front (mpl_signature F)) Hs)
    as [op [Hop Hcall]].
  exists op. split; [exact Hop|].
  pose proof (make_boost_function_self_preserving F fn Hfn) as Hsp.
  apply call_sequence_preserves.
  intros args w. rewrite Hcall.
  apply (guarded_call_self_preserving (G := G)
           (make_guarded_function G fn) args w Hsp).
Qed.

(** C10.  Every call operator receives its arguments by value.  Whatever
    the stored target is, and whether its own parameters are declared by
    value or by reference, a call of the wrapper with the argument objects
    [x1, ..., xn] leaves those objects holding what they held: the target
    works on the operator's parameters, which are copies.  The call is
    otherwise the call operator applied to the values [x1, ..., xn] in the
    same order: same outcome, same wrapper and state afterwards, same
    trace. *)
Theorem arguments_received_by_value (G : Type) `{Guard G} (R : Type)
    (As : list Type) :
  supported As ->
  exists op,
    call_operator (R := R) (G := G) As = Some op /\
    forall (t : target (Build_signature R As)) (xs : tuple As) (w : World),
      snd (operator_on_objects G t xs w) = xs /\
      op xs (wrapper_of G t, w)
      = (fst (fst (fst (operator_on_objects G t xs w))),
         (wrapper_of G (fst (snd (fst (fst (operator_on_objects G t xs w))))),
          snd (snd (fst (fst (operator_on_objects G t xs w))))),
         snd (fst (operator_on_objects G t xs w))).
Proof.
  intro Hs.
  destruct (call_operator_supported (G := G) R Hs) as [op [Hop Hcall]].
  exists op. split; [exact Hop|].
  intros t xs w. rewrite Hcall.
  exact (operator_on_objects_scoped (G := G) t xs w).
Qed.

(** ** Further properties of the header *)

(** An invariant of the state that every call keeps is kept by a run of
    calls. *)
Lemma call_sequence_invariant (St A B : Type) (op : A -> M St B)
    (P : St -> Prop) :
  (forall a s, P s -> P (snd (fst (op a s)))) ->
  forall calls s, P s -> P (snd (fst (call_sequence op calls s))).
Proof.
  intros Hop calls.
  induction calls as [|a calls IH]; intros s Hs; [exact Hs|].
  cbn [call_sequence].
  specialize (Hop a s Hs).
  destruct (op a s) as [[r s1] t1]. cbn [fst snd] in Hop.
  specialize (IH s1 Hop).
  destruct (call_sequence op calls s1) as [[rs s2] t2].
  exact IH.
Qed.

(** The state a call of the wrapper under [no_gil] leaves: the lock held,
    the thread state that was installed when the call began, and the native
    memory as the callable left it. *)
Lemma no_gil_call_world (Sig : signature)
    (gf : guarded_function Sig no_gil) (args : tuple (params Sig))
    (w : World) :
  snd (snd (fst (scoped no_gil (call_fn_ args) (gf, w))))
  = {| interp := {| gil_held := true;
                    tstate_current := tstate_current (interp w) |};
       mem := mem (snd (snd (fst (function_call args
                                    (fn_ gf, released w))))) |}.
Proof. rewrite no_gil_call_unfold. reflexivity. Qed.

(** X2.  The object the factory makes can be called exactly when the
    synthesized signature has at most four parameters.  The instance pointer
    of a member function is one of them: a function may have four
    parameters, a member function three of its own. *)
Theorem factory_arity_limit (G : Type) `{Guard G} (R C : Type)
    (As : list Type) (Policy : Type) (policy : Policy)
    (fn : Fn (function_pointer R As))
    (mfn : Fn (member_function_pointer R C As)) :
  (python_call (with_aux G fn policy) = None <-> 4 < length As) /\
  (python_call (with_aux G mfn policy) = None <-> 3 < length As).
Proof.
  unfold python_call.
  cbn [with_aux make_function obj_signature obj_guard obj_guard_ops
       obj_callable obj_policy mpl_signature front rest].
  split.
  - destruct As as [|A1 [|A2 [|A3 [|A4 [|A5 As]]]]]; simpl;
      (split; intro Hx; try lia; try discriminate Hx; try reflexivity).
  - destruct As as [|A1 [|A2 [|A3 [|A4 As]]]]; simpl;
      (split; intro Hx; try lia; try discriminate Hx; try reflexivity).
Qed.

(** X4.  A call under [no_gil] that begins with the lock held, and whose
    callable leaves the lock released as it found it, changes nothing of the
    program state but what the callable did to native memory: the callable
    starts with the caller's native memory, and the call ends with the
    interpreter's state as it was and the native memory as the callable left
    it. *)
Theorem guarded_call_leaves_memory_effects_only (R : Type)
    (As : list Type) :
  supported As ->
  exists op,
    call_operator (R := R) (G := no_gil) As = Some op /\
    forall gf args w,
      gil_held (interp w) = true ->
      gil_held
        (interp (snd (snd (fst (function_call
                                  (Sig := Build_signature R As) args
                                  (fn_ gf, released w))))))
      = false ->
      mem (released w) = mem w /\
      snd (snd (fst (op args (gf, w))))
      = {| interp := interp w;
           mem := mem (snd (snd (fst (function_call
                                        (Sig := Build_signature R As) args
                                        (fn_ gf, released w))))) |}.
Proof.
  intro Hs.
  destruct (call_operator_supported (G := no_gil) R Hs) as [op [Hop Hcall]].
  exists op. split; [exact Hop|].
  intros gf args w Hheld _. split; [reflexivity|].
  rewrite Hcall, no_gil_call_world.
  destruct (interp w) as [held t]. cbn in *. rewrite Hheld. reflexivity.
Qed.

(** X5.  A run of calls under [no_gil] that begins with the lock held ends
    with the interpreter's state as it was at the beginning, whatever the
    calls returned or threw and whatever the callable did in between. *)
Theorem interpreter_state_kept_by_calls (R : Type) (As : list Type) :
  supported As ->
  exists op,
    call_operator (R := R) (G := no_gil) As = Some op /\
    forall gf calls w,
      gil_held (interp w) = true ->
      interp (snd (snd (fst (call_sequence op calls (gf, w))))) = interp w.
Proof.
  intro Hs.
  destruct (call_operator_supported (G := no_gil) R Hs) as [op [Hop Hcall]].
  exists op. split; [exact Hop|].
  intros gf calls w Hheld.
  apply (call_sequence_invariant op
           (fun st => interp (snd st) = interp w)); [|reflexivity].
  intros args [gf1 w1] Hw1. cbn [snd] in Hw1.
  rewrite Hcall, no_gil_call_world. cbn [interp].
  rewrite Hw1. destruct (interp w) as [held t]. cbn in *.
  rewrite Hheld. reflexivity.
Qed.


(** X7.  The guard alone, as in the usage note of [no_gil]: a block that
    holds a guard and does nothing else, entered with the lock held, leaves
    the program state exactly as it found it, after one release and one
    restore of the token that release returned. *)
Theorem no_gil_round_trip (St : Type) (this : St) (w : World) :
  gil_held (interp w) = true ->
  scoped no_gil (fun st => (Normal tt, st, [])) (this, w)
  = (Normal tt, (this, w),
     [SaveThread (tstate_current (interp w));
      RestoreThread (tstate_current (interp w))]).
Proof.
  intro Hheld.
  rewrite scoped_constructed
    with (g := {| _state := tstate_current (interp w) |})
         (w1 := released w) (t1 := [SaveThread (tstate_current (interp w))])
    by apply no_gil_constructed.
  cbn [fst snd app destroy no_gil_Guard no_gil_dtor _state].
  unfold PyEval_RestoreThread, released. cbn [fst snd PyEval_SaveThread mem].
  destruct w as [[held t] m]. cbn in *. rewrite Hheld. reflexivity.
Qed.

End WithGuard.

(** Outside the section the guard type is still given by name. *)
Arguments Raise {exn A} e.
Arguments scoped {PyThreadState Mem exn obs} G {_ St A} body _.
Arguments with_aux {PyThreadState Mem exn obs} G {_ F Policy} fn policy.
Arguments with_policy {PyThreadState Mem exn obs} G {_ F Policy} fn policy.
Arguments with_ {PyThreadState Mem exn obs} G {_ F} fn.
Arguments invoke {PyThreadState Mem exn obs F} fn args w.
Arguments unchanged_by_call {PyThreadState Mem exn obs F} fn.
Arguments operator_on_objects {PyThreadState Mem exn obs} G {_ Sig} t xs w.

(** * The claims on sample runs

    The samples run on a thread whose state is number 7 and which holds the
    lock, with no native memory to speak of, exceptions that carry a message
    and no events of their own. *)


(** C2 on [add]: the whole call, with the release before and the restore
    after. *)
Lemma lock_released_around_call_witness :
  exists op,
    call_operator (exn := string) (obs := unit) (R := num) (G := no_gil)
      [num; num] = Some op /\
    op (2, (3, tt)) (make_guarded_function no_gil add, holding (Some 7) tt)
    = (Normal 5,
       (make_guarded_function no_gil add, holding (Some 7) tt),
       [SaveThread (Some 7); RestoreThread (Some 7)]).
Proof.
  destruct (lock_released_around_call (PyThreadState := nat) (Mem := unit)
              (exn := string) (obs := unit) num (As := [num; num]))
    as [op [Hop Hcall]].
  - unfold supported. simpl. lia.
  - exists op. split; [exact Hop|].
    destruct (Hcall (make_guarded_function no_gil add) (2, (3, tt))
                (holding (Some 7) tt))
      as (r & f' & w2 & tr & Hin & _ & Hop_eq & _).
    refine (eq_trans Hop_eq _).
    cbv in Hin. inversion Hin; subst. reflexivity.
Defined.

(** C3 on a function that throws ["x"]: the same exception leaves the
    wrapper, after one release and one restore, with the lock held. *)
Lemma exception_propagates_and_lock_restored_witness :
  exists op,
    call_operator (obs := unit) (R := num) (G := no_gil) [] = Some op /\
    fst (fst (op tt (make_guarded_function no_gil (thrower num "x"%string),
                     holding (Some 7) tt)))
    = Raise "x"%string /\
    snd (op tt (make_guarded_function no_gil (thrower num "x"%string),
                holding (Some 7) tt))
    = [SaveThread (Some 7); RestoreThread (Some 7)] /\
    gil_held
      (interp
         (snd (snd (fst (op tt (make_guarded_function no_gil
                                  (thrower num "x"%string),
                                holding (Some 7) tt))))))
    = true.
Proof.
  destruct (exception_propagates_and_lock_restored
              (function_pointer num [])
              (thrower (PyThreadState := nat) (Mem := unit) (obs := unit)
                 num "x"%string))
    as [op [Hop Hraise]].
  - unfold supported. simpl. lia.
  - exists op. split; [exact Hop|].
    destruct (Hraise tt (holding (Some 7) tt) "x"%string
                (released (holding (Some 7) tt)) [] eq_refl)
      as (Hr & Htr & _ & Hheld).
    repeat split; assumption.
Defined.

(** C4 on [add]: two calls, two releases, two restores. *)
Lemma releases_and_restores_paired_witness :
  exists op,
    call_operator (exn := string) (obs := unit) (R := num) (G := no_gil)
      [num; num] = Some op /\
    releases (snd (call_sequence op [(1, (2, tt)); (3, (4, tt))]
                     (make_guarded_function no_gil add,
                      holding (Some 7) tt))) = 2 /\
    restores (snd (call_sequence op [(1, (2, tt)); (3, (4, tt))]
                     (make_guarded_function no_gil add,
                      holding (Some 7) tt))) = 2.
Proof.
  destruct (releases_and_restores_paired (PyThreadState := nat)
              (Mem := unit) (exn := string) (obs := unit) num
              (As := [num; num]))
    as [op [Hop Hpaired]].
  - unfold supported. simpl. lia.
  - exists op. split; [exact Hop|].
    destruct (Hpaired (make_guarded_function no_gil add)
                [(1, (2, tt)); (3, (4, tt))] (holding (Some 7) tt))
      as (_ & _ & _ & _ & Hquiet).
    apply Hquiet; reflexivity.
Defined.


(** C6 on [add] under [no_gil], whose constructor returns, and under a guard
    whose constructor throws. *)
Lemma one_guard_per_call_witness :
  (exists op,
     call_operator (exn := string) (obs := unit) (R := num) (G := no_gil)
       [num; num] = Some op /\
     op (2, (3, tt)) (make_guarded_function no_gil add, holding (Some 7) tt)
     = (Normal 5,
        (make_guarded_function no_gil add, holding (Some 7) tt),
        [SaveThread (Some 7); RestoreThread (Some 7)])) /\
  (exists op,
     call_operator (obs := unit) (R := num) (G := barred)
       (H := barred_Guard "busy"%string) [num; num] = Some op /\
     op (2, (3, tt)) (make_guarded_function barred add,
                      holding (PyThreadState := nat) (Some 7) tt)
     = (Raise "busy"%string,
        (make_guarded_function barred add, holding (Some 7) tt),
        [])).
Proof.
  split.
  - destruct (one_guard_per_call (PyThreadState := nat) (Mem := unit)
                (exn := string) (obs := unit) (G := no_gil) num
                (As := [num; num]))
      as [op [Hop [Hlife _]]].
    + unfold supported. simpl. lia.
    + exists op. split; [exact Hop|].
      destruct (Hlife (make_guarded_function no_gil add) (2, (3, tt))
                  (holding (Some 7) tt) {| _state := Some 7 |}
                  (released (obs := unit) (holding (Some 7) tt))
                  [SaveThread (Some 7)] eq_refl)
        as (r & f' & w2 & t2 & Hin & Hrun).
      refine (eq_trans Hrun _).
      cbv in Hin. inversion Hin; subst. reflexivity.
  - destruct (one_guard_per_call (PyThreadState := nat) (Mem := unit)
                (exn := string) (obs := unit) (G := barred)
                (H := barred_Guard "busy"%string) num (As := [num; num]))
      as [op [Hop [_ [Hnone _]]]].
    + unfold supported. simpl. lia.
    + exists op. split; [exact Hop|].
      exact (Hnone (make_guarded_function barred add) (2, (3, tt))
               (holding (Some 7) tt) "busy"%string (holding (Some 7) tt) []
               eq_refl).
Defined.

(** C9 on [add]: three calls, and the wrapper is as it was made. *)
Lemma wrapper_unchanged_by_calls_witness :
  exists op,
    call_operator (exn := string) (obs := unit) (R := num) (G := no_gil)
      [num; num] = Some op /\
    fst (snd (fst (call_sequence op
                     [(1, (2, tt)); (3, (4, tt)); (5, (6, tt))]
                     (make_guarded_function no_gil add,
                      holding (Some 7) tt))))
    = make_guarded_function no_gil add.
Proof.
  destruct (wrapper_unchanged_by_calls (G := @no_gil nat)
              (function_pointer num [num; num])
              (add (Mem := unit) (exn := string) (obs := unit)))
    as [_ [op [Hop Hsame]]].
  - unfold supported. simpl. lia.
  - exact I.
  - exists op. split; [exact Hop|].
    exact (Hsame [(1, (2, tt)); (3, (4, tt)); (5, (6, tt))]
             (holding (Some 7) tt)).
Defined.

(** C10 on [bump], which increments the object its reference parameter
    names: called through the wrapper on an object holding 1, it returns and
    the object still holds 1. *)
Lemma arguments_received_by_value_witness :
  snd (operator_on_objects (exn := string) (obs := unit) no_gil bump (1, tt)
         (holding (Mem := unit) (Some 7) tt))
  = (1, tt) /\
  fst (fst (fst (operator_on_objects (exn := string) (obs := unit) no_gil
                   bump (1, tt) (holding (Mem := unit) (Some 7) tt))))
  = Normal tt.
Proof.
  destruct (arguments_received_by_value (PyThreadState := nat) (Mem := unit)
              (exn := string) (obs := unit) (G := no_gil) unit
              (As := [num]))
    as [op [Hop Hcopy]].
  - unfold supported. simpl. lia.
  - destruct (Hcopy bump (1, tt) (holding (Some 7) tt)) as [Hsame _].
    split; [exact Hsame|reflexivity].
Defined.

(** Called directly, [bump] changes the object: it holds 2 afterwards. *)
Lemma bump_called_directly :
  snd (fst (snd (fst (call_on_objects (exn := string) (obs := unit)
                        ((bump, (1, tt)), holding (Mem := unit) (Some 7) tt)))))
  = (2, tt).
Proof. reflexivity. Qed.

(** * Where the code differs from the claims *)




(** C6 as stated fails: nothing in [no_gil] forbids a copy.  The block that
    copies its guard gets, from the guard [g] holding token 7, a second guard
    holding the same token; the lock is released once and restored twice
    with that token. *)
Lemma copied_guard_restores_twice :
  _state (no_gil_copy {| _state := Some 7 |}) = _state {| _state := Some 7 |} /\
  snd (copied_guard_block (obs := unit) (holding (Some 7) tt))
  = [SaveThread (Some 7); RestoreThread (Some 7); RestoreThread (Some 7)] /\
  releases (snd (copied_guard_block (obs := unit) (holding (Some 7) tt))) = 1 /\
  restores (snd (copied_guard_block (obs := unit) (holding (Some 7) tt))) = 2.
Proof. repeat split. Qed.

(** C9 as stated fails: a wrapper around a [boost::function] that holds a
    [counter] is not the same after a call, and two calls of it with the
    same (no) arguments return 1 and then 2. *)
Lemma counter_wrapper_changes :
  exists op,
    call_operator (exn := string) (obs := unit) (R := num) (G := no_gil) []
    = Some op /\
    fst (fst (call_sequence op [tt; tt]
                (make_guarded_function no_gil (counter 0),
                 holding (Some 7) tt)))
    = [Normal 1; Normal 2] /\
    fst (snd (fst (op tt (make_guarded_function no_gil (counter 0),
                          holding (Some 7) tt))))
    <> make_guarded_function no_gil (counter 0).
Proof.
  eexists. split; [reflexivity|]. split; [reflexivity|].
  intro Heq.
  apply (f_equal
           (fun gf : guarded_function (Build_signature num []) no_gil =>
              fst (fst (function_call (Sig := Build_signature num []) tt
                          (fn_ gf, holding (Some 7) tt))))) in Heq.
  cbv in Heq. discriminate Heq.
Qed.

(** * The further properties on sample runs *)

(** X4 on [add]: the state after the wrapped call [add(2, 3)]. *)
Lemma guarded_call_leaves_memory_effects_only_witness :
  exists op,
    call_operator (exn := string) (obs := unit) (R := num) (G := no_gil)
      [num; num] = Some op /\
    snd (snd (fst (op (2, (3, tt))
                     (make_guarded_function no_gil add,
                      holding (Some 7) tt))))
    = holding (Some 7) tt.
Proof.
  destruct (guarded_call_leaves_memory_effects_only (PyThreadState := nat)
              (Mem := unit) (exn := string) (obs := unit) num
              (As := [num; num]))
    as [op [Hop Hworld]].
  - unfold supported. simpl. lia.
  - exists op. split; [exact Hop|].
    destruct (Hworld (make_guarded_function no_gil add) (2, (3, tt))
                (holding (Some 7) tt)) as [_ Hafter].
    + reflexivity.
    + reflexivity.
    + refine (eq_trans Hafter _). reflexivity.
Defined.

(** X5 on a function that throws, called twice with the lock held. *)
Lemma interpreter_state_kept_by_calls_witness :
  exists op,
    call_operator (obs := unit) (R := num) (G := no_gil) [] = Some op /\
    interp (snd (snd (fst (call_sequence op [tt; tt]
                             (make_guarded_function no_gil
                                (thrower num "x"%string),
                              holding (Some 7) tt)))))
    = {| gil_held := true; tstate_current := Some 7 |}.
Proof.
  destruct (interpreter_state_kept_by_calls (PyThreadState := nat)
              (Mem := unit) (exn := string) (obs := unit) num (As := []))
    as [op [Hop Hkept]].
  - unfold supported. simpl. lia.
  - exists op. split; [exact Hop|].
    refine (eq_trans
              (Hkept (make_guarded_function no_gil (thrower num "x"%string))
                 [tt; tt] (holding (Some 7) tt) _) _); reflexivity.
Defined.


(** X7 on a thread that holds the lock. *)
Lemma no_gil_round_trip_witness :
  scoped (exn := string) (obs := unit) no_gil
    (fun st => (Normal tt, st, [])) (tt, holding (Mem := unit) (Some 7) tt)
  = (Normal tt, (tt, holding (Some 7) tt),
     [SaveThread (Some 7); RestoreThread (Some 7)]).
Proof.
  apply (no_gil_round_trip (exn := string) (obs := unit) tt
           (holding (Mem := unit) (Some 7) tt)).
  reflexivity.
Defined.
